(** * The login page of switch.ai (src/app/login/page.tsx)

    A shallow embedding of the [LoginPage] component: its two event
    handlers [handleSubmit] and [handleGoogleLogin], the part of its
    render output that decides which controls are disabled, and the
    event loop that runs the handlers.

    JavaScript strings are sequences of UTF-16 code units, JavaScript
    values are an inductive type, and a handler is a finite program
    over the effects the source performs (hook setters, toasts, the
    console, the two calls into the auth context). *)

From Stdlib Require Import List Bool NArith ZArith Ascii String Lia.
Import ListNotations.

Local Set Warnings "-register-all".

(** ** JavaScript strings *)

Module Js.

(** A string is the list of its UTF-16 code units. *)
Definition JsString := list N.

(** A source literal; every literal of the page is ASCII. *)
Fixpoint lit (s : string) : JsString :=
  match s with
  | EmptyString => []
  | String c r => N_of_ascii c :: lit r
  end.

Fixpoint str_eqb (a b : JsString) : bool :=
  match a, b with
  | [], [] => true
  | x :: a', y :: b' => N.eqb x y && str_eqb a' b'
  | _, _ => false
  end.

(** ECMAScript WhiteSpace and LineTerminator code points, the ones
    [String.prototype.trim] strips.  All lie in the basic plane, so the
    test is per code unit. *)
Definition isWhiteSpace (c : N) : bool :=
  (N.eqb c 9 || N.eqb c 10 || N.eqb c 11 || N.eqb c 12 || N.eqb c 13
   || N.eqb c 32 || N.eqb c 160 || N.eqb c 5760
   || (N.leb 8192 c && N.leb c 8202)
   || N.eqb c 8232 || N.eqb c 8233 || N.eqb c 8239 || N.eqb c 8287
   || N.eqb c 12288 || N.eqb c 65279)%N.

Fixpoint trimStart (s : JsString) : JsString :=
  match s with
  | [] => []
  | c :: r => if isWhiteSpace c then trimStart r else s
  end.

Definition trimEnd (s : JsString) : JsString := rev (trimStart (rev s)).

(** [s.trim()] *)
Definition trim (s : JsString) : JsString := trimEnd (trimStart s).

(** ** JavaScript values *)

(** What [typeof] and [instanceof Error] can tell apart on an object. *)
Inductive ObjKind := PlainObject | ErrorObject | FunctionObject.

(** Numbers are observed by the page through truthiness only; the
    integral ones and NaN are represented.  An object carries its own
    data properties in definition order (the first binding of a key is
    the one read). *)
Inductive JsValue :=
| JsUndefined
| JsNull
| JsBool (b : bool)
| JsNum (z : Z)
| JsNaN
| JsBigInt (z : Z)
| JsSymbol (description : JsString)
| JsStr (s : JsString)
| JsObj (kind : ObjKind) (fields : list (JsString * JsValue)).

(** ToBoolean *)
Definition truthy (v : JsValue) : bool :=
  match v with
  | JsUndefined | JsNull | JsNaN => false
  | JsBool b => b
  | JsNum z | JsBigInt z => negb (Z.eqb z 0)
  | JsStr s => match s with [] => false | _ => true end
  | JsSymbol _ | JsObj _ _ => true
  end.

(** [typeof v === 'object'] (true of null, false of functions) *)
Definition typeof_object (v : JsValue) : bool :=
  match v with
  | JsNull => true
  | JsObj FunctionObject _ => false
  | JsObj _ _ => true
  | _ => false
  end.

(** [v instanceof Error] *)
Definition instanceof_Error (v : JsValue) : bool :=
  match v with
  | JsObj ErrorObject _ => true
  | _ => false
  end.

Fixpoint assoc (k : JsString) (fs : list (JsString * JsValue))
  : option JsValue :=
  match fs with
  | [] => None
  | (k', v) :: r => if str_eqb k k' then Some v else assoc k r
  end.

(** Data properties inherited from the prototype: [Error.prototype]
    provides [message] and [name]. *)
Definition proto_fields (kd : ObjKind) : list (JsString * JsValue) :=
  match kd with
  | ErrorObject =>
      [(lit "message", JsStr (lit "")); (lit "name", JsStr (lit "Error"))]
  | _ => []
  end.

Definition lookup (k : JsString) (v : JsValue) : option JsValue :=
  match v with
  | JsObj kd fs =>
      match assoc k fs with
      | Some x => Some x
      | None => assoc k (proto_fields kd)
      end
  | _ => None
  end.

(** [k in v], for an object [v] *)
Definition has_property (k : JsString) (v : JsValue) : bool :=
  match lookup k v with Some _ => true | None => false end.

(** [v.k]; on a primitive the read goes to its wrapper's prototype,
    which has none of the keys the page reads. *)
Definition get (v : JsValue) (k : JsString) : JsValue :=
  match lookup k v with Some x => x | None => JsUndefined end.

(** [v?.k] *)
Definition get_opt (v : JsValue) (k : JsString) : JsValue :=
  match v with
  | JsUndefined | JsNull => JsUndefined
  | _ => get v k
  end.

(** [a || b] *)
Definition or_else (a b : JsValue) : JsValue := if truthy a then a else b.

End Js.
Import Js.

(** ** Effects of the page *)

Inductive Variant := Default | Destructive.

(** The argument of [toast]; [variant] is [None] where the source
    leaves it out. *)
Record ToastArgs := {
  title : JsString;
  description : JsValue;
  variant : option Variant
}.

(** Calls that return nothing the page uses: the event's
    [preventDefault], the toast sink, the hook setters, the console and
    the [onSwitchToRegister] prop.  They are taken to return normally. *)
Inductive Action :=
| PreventDefault
| Toast (t : ToastArgs)
| SetIsLoading (b : bool)
| SetIsGoogleLoading (b : bool)
| ConsoleError (label : JsString) (v : JsValue)
| OnSwitchToRegister.

(** Calls into the auth context. *)
Inductive AuthCall :=
| Login (email password : JsString)
| LoginWithGoogle.

(** How a call into the auth context ends: it returns (or its promise
    fulfils), or it throws (or its promise rejects) with a reason. *)
Inductive Outcome :=
| Fulfilled
| Failed (reason : JsValue).

(** A handler body.  [Raise v] is an exception in flight; [CallSync] is
    a plain call, [CallAwait] a call whose promise is awaited. *)
Inductive Prog (A : Type) :=
| Ret (a : A)
| Raise (v : JsValue)
| Do (a : Action) (k : Prog A)
| CallSync (c : AuthCall) (k : Outcome -> Prog A)
| CallAwait (c : AuthCall) (k : Outcome -> Prog A).

Arguments Ret {A} a.
Arguments Raise {A} v.
Arguments Do {A} a k.
Arguments CallSync {A} c k.
Arguments CallAwait {A} c k.

Fixpoint bind {A B} (p : Prog A) (f : A -> Prog B) : Prog B :=
  match p with
  | Ret a => f a
  | Raise v => Raise v
  | Do a k => Do a (bind k f)
  | CallSync c k => CallSync c (fun o => bind (k o) f)
  | CallAwait c k => CallAwait c (fun o => bind (k o) f)
  end.

(** [try { p } catch (e) { h e }] *)
Fixpoint try_catch {A} (p : Prog A) (h : JsValue -> Prog A) : Prog A :=
  match p with
  | Ret a => Ret a
  | Raise v => h v
  | Do a k => Do a (try_catch k h)
  | CallSync c k => CallSync c (fun o => try_catch (k o) h)
  | CallAwait c k => CallAwait c (fun o => try_catch (k o) h)
  end.

(** [try { p } finally { fin }]: [fin] runs on both exits, and the
    exit of [p] is kept unless [fin] itself throws. *)
Fixpoint try_finally {A} (p : Prog A) (fin : Prog unit) : Prog A :=
  match p with
  | Ret a => bind fin (fun _ => Ret a)
  | Raise v => bind fin (fun _ => Raise v)
  | Do a k => Do a (try_finally k fin)
  | CallSync c k => CallSync c (fun o => try_finally (k o) fin)
  | CallAwait c k => CallAwait c (fun o => try_finally (k o) fin)
  end.

Definition act (a : Action) : Prog unit := Do a (Ret tt).

Definition settle (o : Outcome) : Prog unit :=
  match o with
  | Fulfilled => Ret tt
  | Failed v => Raise v
  end.

(** [f(...)] and [await f(...)] with the result dropped *)
Definition call (c : AuthCall) : Prog unit := CallSync c settle.
Definition await (c : AuthCall) : Prog unit := CallAwait c settle.

Notation "p ;; q" := (bind p (fun _ => q))
  (at level 61, right associativity).

(** ** The component *)

(** The four [useState] cells. *)
Record FormState := {
  email : JsString;
  password : JsString;
  isLoading : bool;
  isGoogleLoading : bool
}.

(** Initial values of the cells. *)
Definition initialState : FormState :=
  {| email := lit ""; password := lit "";
     isLoading := false; isGoogleLoading := false |}.

Definition emailRequired : ToastArgs :=
  {| title := lit "error";
     description := JsStr (lit "email is required");
     variant := Some Destructive |}.

Definition passwordRequired : ToastArgs :=
  {| title := lit "error";
     description := JsStr (lit "password is required");
     variant := Some Destructive |}.

Definition loginSuccessful : ToastArgs :=
  {| title := lit "success";
     description := JsStr (lit "login successful");
     variant := None |}.

Definition genericLoginFailure : JsValue :=
  JsStr (lit "login failed. please try again.").

(** The value of [errorMessage] at the end of the catch block of
    [handleSubmit]. *)
Definition errorMessage (error : JsValue) : JsValue :=
  let errorMessage := genericLoginFailure in
  if truthy error && typeof_object error
     && has_property (lit "response") error
  then
    or_else (get_opt (get_opt (get error (lit "response")) (lit "data"))
                     (lit "error"))
            errorMessage
  else if instanceof_Error error then get error (lit "message")
  else errorMessage.

Definition loginFailed (error : JsValue) : ToastArgs :=
  {| title := lit "login failed";
     description := errorMessage error;
     variant := Some Destructive |}.

Definition googleLoginFailed : ToastArgs :=
  {| title := lit "error";
     description :=
       JsStr (lit "failed to start google login. please try again.");
     variant := Some Destructive |}.

(** [!s.trim()] *)
Definition blank (s : JsString) : bool := negb (truthy (JsStr (trim s))).

(** [handleSubmit], closed over the cells of the render that created
    it. *)
Definition handleSubmit (st : FormState) : Prog unit :=
  act PreventDefault ;;
  if blank (email st) then
    act (Toast emailRequired)
  else if blank (password st) then
    act (Toast passwordRequired)
  else
    act (SetIsLoading true) ;;
    try_finally
      (try_catch
         (await (Login (email st) (password st)) ;;
          act (Toast loginSuccessful))
         (fun error => act (Toast (loginFailed error))))
      (act (SetIsLoading false)).

(** [handleGoogleLogin] *)
Definition handleGoogleLogin : Prog unit :=
  act (SetIsGoogleLoading true) ;;
  try_catch
    (call LoginWithGoogle)
    (fun error =>
       act (ConsoleError (lit "Google login failed:") error) ;;
       act (Toast googleLoginFailed) ;;
       act (SetIsGoogleLoading false)).

(** The part of the returned element tree that depends on the cells. *)
Record View := {
  googleDisabled : bool;
  googleLabel : JsString;
  emailValue : JsString;
  passwordValue : JsString;
  submitDisabled : bool;
  submitLabel : JsString
}.

Definition render (st : FormState) : View :=
  {| googleDisabled := isGoogleLoading st || isLoading st;
     googleLabel := if isGoogleLoading st then lit "connecting..."
                    else lit "continue with google";
     emailValue := email st;
     passwordValue := password st;
     submitDisabled := isLoading st || isGoogleLoading st;
     submitLabel := if isLoading st then lit "logging in..."
                    else lit "login" |}.

(** ** Running a handler *)

(** What the outside world sees, in the order it happens. *)
Inductive Event :=
| EvDo (a : Action)
| EvCall (c : AuthCall).

(** The committed cells and the events so far (oldest first). *)
Record World := {
  cells : FormState;
  log : list Event
}.

(** A hook setter replaces its cell; nothing else touches the cells. *)
Definition apply_action (a : Action) (st : FormState) : FormState :=
  match a with
  | SetIsLoading b =>
      {| email := email st; password := password st;
         isLoading := b; isGoogleLoading := isGoogleLoading st |}
  | SetIsGoogleLoading b =>
      {| email := email st; password := password st;
         isLoading := isLoading st; isGoogleLoading := b |}
  | _ => st
  end.

Definition record (e : Event) (w : World) : World :=
  {| cells := match e with
              | EvDo a => apply_action a (cells w)
              | EvCall _ => cells w
              end;
     log := log w ++ [e] |}.

(** How a handler ends: it returns, or an exception leaves it (for an
    async handler: its promise rejects). *)
Inductive Completion (A : Type) :=
| Returned (a : A)
| Thrown (v : JsValue).

Arguments Returned {A} a.
Arguments Thrown {A} v.

(** What the auth context answers to each call. *)
Definition Env := AuthCall -> Outcome.

(** A handler run to its end, awaited promises settled by [env]. *)
Fixpoint run {A} (env : Env) (p : Prog A) (w : World)
  : Completion A * World :=
  match p with
  | Ret a => (Returned a, w)
  | Raise v => (Thrown v, w)
  | Do a k => run env k (record (EvDo a) w)
  | CallSync c k => run env (k (env c)) (record (EvCall c) w)
  | CallAwait c k => run env (k (env c)) (record (EvCall c) w)
  end.

(** A handler run up to its first [await]: it is over, or it waits for
    the promise of call [c] with continuation [k]. *)
Inductive Turn (A : Type) :=
| Done (r : Completion A) (w : World)
| Pending (c : AuthCall) (k : Outcome -> Prog A) (w : World).

Arguments Done {A} r w.
Arguments Pending {A} c k w.

Fixpoint run_turn {A} (env : Env) (p : Prog A) (w : World) : Turn A :=
  match p with
  | Ret a => Done (Returned a) w
  | Raise v => Done (Thrown v) w
  | Do a k => run_turn env k (record (EvDo a) w)
  | CallSync c k => run_turn env (k (env c)) (record (EvCall c) w)
  | CallAwait c k => Pending c k (record (EvCall c) w)
  end.

Definition fresh (st : FormState) : World := {| cells := st; log := [] |}.

(** One submission of the form rendered from [st], run to its end. *)
Definition submit (env : Env) (st : FormState) : Completion unit * World :=
  run env (handleSubmit st) (fresh st).

(** One click on the Google button rendered from [st]. *)
Definition clickGoogle (env : Env) (st : FormState)
  : Completion unit * World :=
  run env handleGoogleLogin (fresh st).

(** Projections of a log. *)
Fixpoint toasts (l : list Event) : list ToastArgs :=
  match l with
  | [] => []
  | EvDo (Toast t) :: r => t :: toasts r
  | _ :: r => toasts r
  end.

Fixpoint logins (l : list Event) : list (JsString * JsString) :=
  match l with
  | [] => []
  | EvCall (Login e p) :: r => (e, p) :: logins r
  | _ :: r => logins r
  end.

Fixpoint consoleErrors (l : list Event) : list (JsString * JsValue) :=
  match l with
  | [] => []
  | EvDo (ConsoleError s v) :: r => (s, v) :: consoleErrors r
  | _ :: r => consoleErrors r
  end.

(** ** The event loop of the page *)

(** The mounted page: its world and the handlers suspended at an
    [await]. *)
Record Page := {
  world : World;
  inflight : list (AuthCall * (Outcome -> Prog unit))
}.

Definition initialPage : Page :=
  {| world := fresh initialState; inflight := [] |}.

(** What can happen to the page.  An event that runs handler code
    carries the answers of the auth context to the calls made in that
    turn. *)
Inductive UiEvent :=
| ChangeEmail (v : JsString)
| ChangePassword (v : JsString)
| SubmitForm (env : Env)
| ClickGoogle (env : Env)
| Settle (i : nat) (o : Outcome) (env : Env)
| ClickSignUp.

Definition set_email (v : JsString) (st : FormState) : FormState :=
  {| email := v; password := password st;
     isLoading := isLoading st; isGoogleLoading := isGoogleLoading st |}.

Definition set_password (v : JsString) (st : FormState) : FormState :=
  {| email := email st; password := v;
     isLoading := isLoading st; isGoogleLoading := isGoogleLoading st |}.

Definition with_cells (f : FormState -> FormState) (pg : Page) : Page :=
  {| world := {| cells := f (cells (world pg)); log := log (world pg) |};
     inflight := inflight pg |}.

(** Run one turn of [p] on the page, given what else stays in flight. *)
Definition turn (env : Env) (p : Prog unit) (w : World)
  (rest : list (AuthCall * (Outcome -> Prog unit))) : Page :=
  match run_turn env p w with
  | Done _ w' => {| world := w'; inflight := rest |}
  | Pending c k w' => {| world := w'; inflight := rest ++ [(c, k)] |}
  end.

Fixpoint remove_nth {A} (i : nat) (l : list A) : list A :=
  match i, l with
  | _, [] => []
  | O, _ :: r => r
  | S j, x :: r => x :: remove_nth j r
  end.

(** One step of the page; [None] when the event cannot happen: a
    disabled button dispatches nothing, and only a promise in flight
    can settle.  The buttons are the ones rendered from the committed
    cells, and a handler is the closure of that render. *)
Definition dispatch (ev : UiEvent) (pg : Page) : option Page :=
  let st := cells (world pg) in
  match ev with
  | ChangeEmail v => Some (with_cells (set_email v) pg)
  | ChangePassword v => Some (with_cells (set_password v) pg)
  | SubmitForm env =>
      if submitDisabled (render st) then None
      else Some (turn env (handleSubmit st) (world pg) (inflight pg))
  | ClickGoogle env =>
      if googleDisabled (render st) then None
      else Some (turn env handleGoogleLogin (world pg) (inflight pg))
  | Settle i o env =>
      match nth_error (inflight pg) i with
      | None => None
      | Some (_, k) =>
          Some (turn env (k o) (world pg) (remove_nth i (inflight pg)))
      end
  | ClickSignUp =>
      (* the sign-up button has no [disabled] prop; its [onClick] is the
         [onSwitchToRegister] prop itself *)
      Some {| world := record (EvDo OnSwitchToRegister) (world pg);
              inflight := inflight pg |}
  end.

Fixpoint dispatch_all (evs : list UiEvent) (pg : Page) : option Page :=
  match evs with
  | [] => Some pg
  | ev :: r =>
      match dispatch ev pg with
      | None => None
      | Some pg' => dispatch_all r pg'
      end
  end.

(** A page the event loop can be in after mounting. *)
Definition reachable (pg : Page) : Prop :=
  exists evs, dispatch_all evs initialPage = Some pg.

(** ** The precedence of the failure message, as the specification
    words it *)




(** The guard of the first branch of the catch block of [handleSubmit]:
    a non-null object with a [response] property. *)
Definition carriesResponse (error : JsValue) : bool :=
  truthy error && typeof_object error && has_property (lit "response") error.

(** ** Sample inputs *)

Definition mkForm (e p : string) : FormState :=
  {| email := lit e; password := lit p;
     isLoading := false; isGoogleLoading := false |}.

Definition resolves : Env := fun _ => Fulfilled.
Definition rejects (reason : JsValue) : Env := fun _ => Failed reason.

(** An HTTP client error for a 500 reply whose body has no [error]
    field: an [Error] with a message and a [response]. *)
Definition serverError500 : JsValue :=
  JsObj ErrorObject
    [(lit "message", JsStr (lit "Request failed with status code 500"));
     (lit "response",
      JsObj PlainObject
        [(lit "status", JsNum 500);
         (lit "data", JsObj PlainObject
                        [(lit "message", JsStr (lit "boom"))])])].

(** A rejection carrying [response.data.error]. *)
Definition invalidCredentials : JsValue :=
  JsObj ErrorObject
    [(lit "message", JsStr (lit "Request failed with status code 401"));
     (lit "response",
      JsObj PlainObject
        [(lit "data", JsObj PlainObject
                        [(lit "error", JsStr (lit "invalid credentials"))])])].

(** The page while a login typed as a@b.com / pw is awaited. *)
Definition typedAndSubmitted : list UiEvent :=
  [ChangeEmail (lit "a@b.com"); ChangePassword (lit "pw");
   SubmitForm resolves].

Definition busyPage : Page :=
  match dispatch_all typedAndSubmitted initialPage with
  | Some pg => pg
  | None => initialPage
  end.

(** ** The invariant of the event loop *)

(** A suspended handler that, once its promise settles, runs to its
    end without waiting again. *)
Definition finishes (k : Outcome -> Prog unit) : Prop :=
  forall o env w, exists r w', run_turn env (k o) w = Done r w'.

(** At most one handler waits, and while one waits [isLoading] holds. *)
Definition page_ok (pg : Page) : Prop :=
  List.length (inflight pg) <= 1
  /\ forall c k, In (c, k) (inflight pg) ->
                 isLoading (cells (world pg)) = true /\ finishes k.

(** ** Rejection values whose reads can throw *)

(** A rejection value is typed [unknown]: besides its data it may have
    accessors or be a proxy, and then a read made by the catch block of
    [handleSubmit] can itself throw.  [Reads] says, for each read the
    catch block makes, whether it throws ([Some e]) or completes with
    what the data of the value gives ([None]).  An accessor that
    returns is a data property for the one read made of it. *)
Record Reads := {
  in_response : option JsValue;   (* ['response' in error] *)
  get_response : option JsValue;  (* [error.response] *)
  get_data : option JsValue;      (* [response?.data] *)
  get_error : option JsValue;     (* [data?.error] *)
  instance_of : option JsValue;   (* [error instanceof Error] *)
  get_message : option JsValue    (* [error.message] *)
}.

(** A read of [target] giving [v]; only a read of an object can throw. *)
Definition guarded (t : option JsValue) (target v : JsValue) : Prog JsValue :=
  match target, t with
  | JsObj _ _, Some e => Raise e
  | _, _ => Ret v
  end.

(** The [else if] of the catch block. *)
Definition messageBranch (rd : Reads) (error : JsValue) : Prog JsValue :=
  bind (guarded (instance_of rd) error (JsBool (instanceof_Error error)))
    (fun _ =>
       if instanceof_Error error
       then guarded (get_message rd) error (get error (lit "message"))
       else Ret genericLoginFailure).

(** The catch block of [handleSubmit] up to its toast, read by read in
    the order of the source. *)
Definition errorMessageX (rd : Reads) (error : JsValue) : Prog JsValue :=
  if truthy error && typeof_object error then
    bind (guarded (in_response rd) error
            (JsBool (has_property (lit "response") error)))
      (fun _ =>
         if has_property (lit "response") error then
           bind (guarded (get_response rd) error (get error (lit "response")))
             (fun r =>
           bind (guarded (get_data rd) r (get_opt r (lit "data")))
             (fun d =>
           bind (guarded (get_error rd) d (get_opt d (lit "error")))
             (fun e => Ret (or_else e genericLoginFailure))))
         else messageBranch rd error)
  else messageBranch rd error.

(** [handleSubmit] with the reads of its catch block spelled out. *)
Definition handleSubmitX (rd : Reads) (st : FormState) : Prog unit :=
  act PreventDefault ;;
  if blank (email st) then
    act (Toast emailRequired)
  else if blank (password st) then
    act (Toast passwordRequired)
  else
    act (SetIsLoading true) ;;
    try_finally
      (try_catch
         (await (Login (email st) (password st)) ;;
          act (Toast loginSuccessful))
         (fun error =>
            bind (errorMessageX rd error)
              (fun d =>
                 act (Toast {| title := lit "login failed";
                               description := d;
                               variant := Some Destructive |}))))
      (act (SetIsLoading false)).

(** No read throws. *)
Definition quietReads (rd : Reads) : Prop :=
  in_response rd = None /\ get_response rd = None /\ get_data rd = None
  /\ get_error rd = None /\ instance_of rd = None /\ get_message rd = None.

Definition noThrow : Reads :=
  {| in_response := None; get_response := None; get_data := None;
     get_error := None; instance_of := None; get_message := None |}.

(** A rejection value whose [response] is an accessor that throws. *)
Definition responseGetterThrows : Reads :=
  {| in_response := None;
     get_response := Some (JsStr (lit "getter failed"));
     get_data := None; get_error := None; instance_of := None;
     get_message := None |}.

(** ** More projections of a log *)

(** Every call into the auth context, in order. *)
Fixpoint calls (l : list Event) : list AuthCall :=
  match l with
  | [] => []
  | EvCall c :: r => c :: calls r
  | _ :: r => calls r
  end.

Definition isPreventDefault (e : Event) : bool :=
  match e with
  | EvDo PreventDefault => true
  | _ => false
  end.

(** A write to one of the two loading cells. *)
Definition isSetter (e : Event) : bool :=
  match e with
  | EvDo (SetIsLoading _) | EvDo (SetIsGoogleLoading _) => true
  | _ => false
  end.

(** The toast that reports how an awaited login ended. *)
Definition outcomeToast (o : Outcome) : ToastArgs :=
  match o with
  | Fulfilled => loginSuccessful
  | Failed error => loginFailed error
  end.

(** Toasts titled 'success' or 'login failed': the reports of a login
    that settled.  The validation toasts and the Google toast are
    titled 'error'. *)
Definition isLoginResult (t : ToastArgs) : bool :=
  str_eqb (title t) (lit "success") || str_eqb (title t) (lit "login failed").

Definition loginResults (l : list Event) : list ToastArgs :=
  filter isLoginResult (toasts l).

(** A rejection value that is not an object: [undefined], [null], a
    boolean, a number, a bigint, a symbol or a string. *)
Definition isPrimitive (v : JsValue) : bool :=
  match v with
  | JsObj _ _ => false
  | _ => true
  end.

Definition nonWhiteSpace (c : N) : Prop := isWhiteSpace c = false.

(** ** The full invariant of the event loop *)

(** A suspended handler that is the rest of [handleSubmit] after its
    [await]: it shows the toast of the outcome, lowers [isLoading] and
    returns. *)
Definition resumes_submit (k : Outcome -> Prog unit) : Prop :=
  forall o env w,
    run_turn env (k o) w =
      Done (Returned tt)
        (record (EvDo (SetIsLoading false))
           (record (EvDo (Toast (outcomeToast o))) w)).

(** Every login called so far has been reported by one toast or is
    still awaited; [isLoading] is true exactly while one is awaited, and
    then [isGoogleLoading] is false. *)
Definition page_inv (pg : Page) : Prop :=
  List.length (logins (log (world pg))) =
    List.length (loginResults (log (world pg))) + List.length (inflight pg)
  /\ match inflight pg with
     | [] => isLoading (cells (world pg)) = false
     | [(_, k)] =>
         isLoading (cells (world pg)) = true
         /\ isGoogleLoading (cells (world pg)) = false
         /\ resumes_submit k
     | _ => False
     end.

(** The page after a Google login that returned. *)
Definition googlePage : Page :=
  match dispatch_all [ClickGoogle resolves] initialPage with
  | Some pg => pg
  | None => initialPage
  end.


(** The page after a Google login that threw. *)
Definition googleFailedPage : Page :=
  match dispatch (ClickGoogle (rejects JsNull)) initialPage with
  | Some pg => pg
  | None => initialPage
  end.

(** The page after a@b.com / pw was typed, before it is submitted. *)
Definition typedPage : Page :=
  match dispatch_all [ChangeEmail (lit "a@b.com"); ChangePassword (lit "pw")]
          initialPage with
  | Some pg => pg
  | None => initialPage
  end.

(** [googlePage] after an edit of the email and a click on sign-up. *)
Definition frozenPage : Page :=
  match dispatch_all [ChangeEmail (lit "x"); ClickSignUp] googlePage with
  | Some pg => pg
  | None => googlePage
  end.

Definition isSignUp (ev : UiEvent) : bool :=
  match ev with
  | ClickSignUp => true
  | _ => false
  end.

Definition isSwitch (e : Event) : bool :=
  match e with
  | EvDo OnSwitchToRegister => true
  | _ => false
  end.

(** A log without its calls of [onSwitchToRegister]. *)
Definition withoutSwitch (l : list Event) : list Event :=
  filter (fun e => negb (isSwitch e)) l.

(** A field edit. *)
Definition isEdit (ev : UiEvent) : bool :=
  match ev with
  | ChangeEmail _ | ChangePassword _ => true
  | _ => false
  end.

(** ** Blank fields *)

(** A field that is empty or holds white space only. *)
Definition whitespaceOnly (s : JsString) : Prop :=
  Forall (fun c => isWhiteSpace c = true) s.

Section Trim.

Lemma trimStart_nil (s : JsString) :
  trimStart s = [] <-> whitespaceOnly s.
Proof.
  unfold whitespaceOnly; induction s as [|c r IH]; simpl.
  - split; [constructor | reflexivity].
  - destruct (isWhiteSpace c) eqn:Hc.
    + rewrite IH; split; intro H.
      * constructor; assumption.
      * inversion H; assumption.
    + split; intro H; [discriminate|].
      inversion H; congruence.
Qed.

Lemma trimStart_whitespaceOnly (s : JsString) :
  whitespaceOnly (trimStart s) <-> whitespaceOnly s.
Proof.
  unfold whitespaceOnly; induction s as [|c r IH]; simpl; [tauto|].
  destruct (isWhiteSpace c) eqn:Hc; [|tauto].
  rewrite IH; split; intro H.
  - constructor; assumption.
  - inversion H; assumption.
Qed.

Lemma whitespaceOnly_rev (s : JsString) :
  whitespaceOnly (rev s) <-> whitespaceOnly s.
Proof.
  unfold whitespaceOnly; rewrite !Forall_forall.
  split; intros H c Hin; apply H; [apply in_rev in Hin|apply in_rev];
    assumption.
Qed.

Lemma rev_nil_inv (A : Type) (l : list A) : rev l = [] -> l = [].
Proof.
  intro H; apply (f_equal (@rev A)) in H.
  rewrite rev_involutive in H; assumption.
Qed.

Lemma trim_nil (s : JsString) : trim s = [] <-> whitespaceOnly s.
Proof.
  unfold trim, trimEnd.
  rewrite <- trimStart_whitespaceOnly, <- whitespaceOnly_rev,
    <- trimStart_nil.
  split; intro H; [apply rev_nil_inv; assumption | rewrite H; reflexivity].
Qed.

(** The source's test [!s.trim()] holds exactly of the fields that are
    empty or white space only. *)
Lemma blank_true (s : JsString) : blank s = true <-> whitespaceOnly s.
Proof.
  rewrite <- trim_nil; unfold blank; simpl.
  destruct (trim s); split; intro H; try reflexivity; discriminate.
Qed.

Lemma blank_false (s : JsString) : blank s = false <-> ~ whitespaceOnly s.
Proof.
  rewrite <- blank_true; destruct (blank s); split; intro H;
    try reflexivity; try discriminate.
  exfalso; apply H; reflexivity.
Qed.

End Trim.

(** ** One submission, run to its end *)

Section Submit.

Variable env : Env.
Variable st : FormState.

Lemma submit_blank_email :
  blank (email st) = true ->
  submit env st =
    (Returned tt,
     {| cells := st;
        log := [EvDo PreventDefault; EvDo (Toast emailRequired)] |}).
Proof.
  intro He; unfold submit, handleSubmit; cbn -[blank].
  rewrite He; reflexivity.
Qed.

Lemma submit_blank_password :
  blank (email st) = false ->
  blank (password st) = true ->
  submit env st =
    (Returned tt,
     {| cells := st;
        log := [EvDo PreventDefault; EvDo (Toast passwordRequired)] |}).
Proof.
  intros He Hp; unfold submit, handleSubmit; cbn -[blank].
  rewrite He, Hp; reflexivity.
Qed.

Lemma submit_valid :
  blank (email st) = false ->
  blank (password st) = false ->
  submit env st =
    (Returned tt,
     {| cells := apply_action (SetIsLoading false) st;
        log := [EvDo PreventDefault;
                EvDo (SetIsLoading true);
                EvCall (Login (email st) (password st));
                EvDo (Toast
                        match env (Login (email st) (password st)) with
                        | Fulfilled => loginSuccessful
                        | Failed error => loginFailed error
                        end);
                EvDo (SetIsLoading false)] |}).
Proof.
  intros He Hp; unfold submit, handleSubmit; cbn -[blank].
  rewrite He, Hp; cbn.
  destruct (env (Login (email st) (password st))); reflexivity.
Qed.

End Submit.

(** The first turn of a valid submission stops at the awaited login
    with the loading flag raised; whatever the promise does, the rest
    shows one toast, lowers the flag and returns. *)
Lemma handleSubmit_turn (env : Env) (st : FormState) (w : World) :
  blank (email st) = false ->
  blank (password st) = false ->
  exists k,
    run_turn env (handleSubmit st) w =
      Pending (Login (email st) (password st)) k
        (record (EvCall (Login (email st) (password st)))
           (record (EvDo (SetIsLoading true))
              (record (EvDo PreventDefault) w)))
    /\ forall o env' w',
        run_turn env' (k o) w' =
          Done (Returned tt)
            (record (EvDo (SetIsLoading false))
               (record (EvDo (Toast match o with
                                    | Fulfilled => loginSuccessful
                                    | Failed error => loginFailed error
                                    end)) w')).
Proof.
  intros He Hp; unfold handleSubmit; cbn -[blank record].
  rewrite He, Hp; cbn -[record].
  eexists; split; [reflexivity|].
  intros [|error] env' w'; reflexivity.
Qed.

Ltac not_blank := apply blank_false; reflexivity.
Ltac all_blank := apply blank_true; reflexivity.

(** C2. A submission whose email field is empty or white space only
    never calls the login of the auth service and shows exactly one
    notification: the destructive one titled 'error' that says 'email is
    required'. *)
Theorem blank_email_rejected (env : Env) (st : FormState) :
  whitespaceOnly (email st) ->
  logins (log (snd (submit env st))) = []
  /\ toasts (log (snd (submit env st))) =
       [{| title := lit "error";
           description := JsStr (lit "email is required");
           variant := Some Destructive |}].
Proof.
  intro H; apply blank_true in H.
  rewrite (submit_blank_email env st H); split; reflexivity.
Qed.

Lemma blank_email_rejected_witness :
  whitespaceOnly (email (mkForm "" "x"))
  /\ logins (log (snd (submit resolves (mkForm "" "x")))) = []
  /\ toasts (log (snd (submit resolves (mkForm "" "x")))) =
       [{| title := lit "error";
           description := JsStr (lit "email is required");
           variant := Some Destructive |}].
Proof.
  split; [all_blank | apply (blank_email_rejected resolves (mkForm "" "x"))].
  all_blank.
Defined.

(** C3. A submission whose email field is not blank and whose password
    field is empty or white space only never calls the login of the auth
    service and shows the destructive notification titled 'error' that
    says 'password is required'. *)
Theorem blank_password_rejected (env : Env) (st : FormState) :
  ~ whitespaceOnly (email st) ->
  whitespaceOnly (password st) ->
  logins (log (snd (submit env st))) = []
  /\ toasts (log (snd (submit env st))) =
       [{| title := lit "error";
           description := JsStr (lit "password is required");
           variant := Some Destructive |}].
Proof.
  intros He Hp; apply blank_false in He; apply blank_true in Hp.
  rewrite (submit_blank_password env st He Hp); split; reflexivity.
Qed.

Lemma blank_password_rejected_witness :
  (~ whitespaceOnly (email (mkForm "a@b.com" "   "))
   /\ whitespaceOnly (password (mkForm "a@b.com" "   ")))
  /\ logins (log (snd (submit resolves (mkForm "a@b.com" "   ")))) = []
  /\ toasts (log (snd (submit resolves (mkForm "a@b.com" "   ")))) =
       [{| title := lit "error";
           description := JsStr (lit "password is required");
           variant := Some Destructive |}].
Proof.
  split; [split; [not_blank | all_blank]|].
  apply (blank_password_rejected resolves (mkForm "a@b.com" "   "));
    [not_blank | all_blank].
Defined.

(** C4. A submission with non-blank email and password whose login
    resolves shows the notification titled 'success' that says 'login
    successful', and the loading flag is false once it is over. *)
Theorem resolved_login_succeeds (env : Env) (st : FormState) :
  ~ whitespaceOnly (email st) ->
  ~ whitespaceOnly (password st) ->
  env (Login (email st) (password st)) = Fulfilled ->
  fst (submit env st) = Returned tt
  /\ toasts (log (snd (submit env st))) =
       [{| title := lit "success";
           description := JsStr (lit "login successful");
           variant := None |}]
  /\ isLoading (cells (snd (submit env st))) = false.
Proof.
  intros He Hp Hr; apply blank_false in He; apply blank_false in Hp.
  rewrite (submit_valid env st He Hp), Hr; repeat split.
Qed.

Lemma resolved_login_succeeds_witness :
  (~ whitespaceOnly (email (mkForm "a@b.com" "pw"))
   /\ ~ whitespaceOnly (password (mkForm "a@b.com" "pw"))
   /\ resolves (Login (lit "a@b.com") (lit "pw")) = Fulfilled)
  /\ fst (submit resolves (mkForm "a@b.com" "pw")) = Returned tt
  /\ toasts (log (snd (submit resolves (mkForm "a@b.com" "pw")))) =
       [{| title := lit "success";
           description := JsStr (lit "login successful");
           variant := None |}]
  /\ isLoading (cells (snd (submit resolves (mkForm "a@b.com" "pw")))) = false.
Proof.
  split; [repeat split; not_blank|].
  apply (resolved_login_succeeds resolves (mkForm "a@b.com" "pw"));
    [not_blank | not_blank | reflexivity].
Defined.

(** C5. In a submission that passes both field checks, the loading flag
    is set to true before the login of the auth service is called: the
    handler waits for the login with the flag raised.  Whether the login
    resolves or rejects, the flag is set to false after it, and it is
    false when the submission is over. *)
Theorem loading_flag_brackets_login (env : Env) (st : FormState) :
  blank (email st) = false ->
  blank (password st) = false ->
  (exists t,
      log (snd (submit env st)) =
        [EvDo PreventDefault;
         EvDo (SetIsLoading true);
         EvCall (Login (email st) (password st));
         EvDo (Toast t);
         EvDo (SetIsLoading false)])
  /\ isLoading (cells (snd (submit env st))) = false
  /\ exists k w1,
      run_turn env (handleSubmit st) (fresh st) =
        Pending (Login (email st) (password st)) k w1
      /\ isLoading (cells w1) = true
      /\ forall o, exists w2,
          run_turn env (k o) w1 = Done (Returned tt) w2
          /\ isLoading (cells w2) = false.
Proof.
  intros He Hp; rewrite (submit_valid env st He Hp); split; [|split].
  - eexists; reflexivity.
  - reflexivity.
  - destruct (handleSubmit_turn env st (fresh st) He Hp) as [k [Hk Hrest]].
    exists k; eexists; split; [exact Hk|]; split; [reflexivity|].
    intro o; eexists; split; [apply Hrest | reflexivity].
Qed.

Lemma loading_flag_brackets_login_witness :
  (blank (email (mkForm "a@b.com" "pw")) = false
   /\ blank (password (mkForm "a@b.com" "pw")) = false)
  /\ (exists t,
      log (snd (submit (rejects JsNull) (mkForm "a@b.com" "pw"))) =
        [EvDo PreventDefault;
         EvDo (SetIsLoading true);
         EvCall (Login (lit "a@b.com") (lit "pw"));
         EvDo (Toast t);
         EvDo (SetIsLoading false)])
  /\ isLoading (cells (snd (submit (rejects JsNull) (mkForm "a@b.com" "pw"))))
     = false
  /\ exists k w1,
      run_turn (rejects JsNull) (handleSubmit (mkForm "a@b.com" "pw"))
               (fresh (mkForm "a@b.com" "pw")) =
        Pending (Login (lit "a@b.com") (lit "pw")) k w1
      /\ isLoading (cells w1) = true
      /\ forall o, exists w2,
          run_turn (rejects JsNull) (k o) w1 = Done (Returned tt) w2
          /\ isLoading (cells w2) = false.
Proof.
  split; [split; reflexivity|].
  apply (loading_flag_brackets_login (rejects JsNull) (mkForm "a@b.com" "pw"));
    reflexivity.
Defined.

(** C9. When both fields are blank, exactly one notification is shown,
    the one that says 'email is required': the email check comes first
    and ends the handler, so the password notification is not shown and
    the auth service is not called. *)
Theorem both_blank_reports_email_only (env : Env) (st : FormState) :
  whitespaceOnly (email st) ->
  whitespaceOnly (password st) ->
  toasts (log (snd (submit env st))) = [emailRequired]
  /\ List.length (toasts (log (snd (submit env st)))) = 1
  /\ ~ In passwordRequired (toasts (log (snd (submit env st))))
  /\ logins (log (snd (submit env st))) = [].
Proof.
  intros He _; apply blank_true in He.
  rewrite (submit_blank_email env st He); cbn.
  repeat split; intros [H|[]]; discriminate H.
Qed.

Lemma both_blank_reports_email_only_witness :
  (whitespaceOnly (email (mkForm "  " "")) /\
   whitespaceOnly (password (mkForm "  " "")))
  /\ toasts (log (snd (submit resolves (mkForm "  " "")))) = [emailRequired]
  /\ List.length (toasts (log (snd (submit resolves (mkForm "  " ""))))) = 1
  /\ ~ In passwordRequired
       (toasts (log (snd (submit resolves (mkForm "  " "")))))
  /\ logins (log (snd (submit resolves (mkForm "  " "")))) = [].
Proof.
  split; [split; all_blank|].
  apply (both_blank_reports_email_only resolves (mkForm "  " "")); all_blank.
Defined.

(** C10. A submission that passes both field checks calls the login of
    the auth service once, with the email and password cells as they
    are: [trim] only decides blankness, the arguments are not trimmed. *)
Theorem login_receives_untrimmed_fields (env : Env) (st : FormState) :
  blank (email st) = false ->
  blank (password st) = false ->
  logins (log (snd (submit env st))) = [(email st, password st)].
Proof.
  intros He Hp; rewrite (submit_valid env st He Hp); reflexivity.
Qed.

Lemma login_receives_untrimmed_fields_witness :
  (blank (email (mkForm " a@b.com " "pw  ")) = false
   /\ blank (password (mkForm " a@b.com " "pw  ")) = false
   /\ trim (lit " a@b.com ") = lit "a@b.com"
   /\ trim (lit "pw  ") = lit "pw")
  /\ logins (log (snd (submit resolves (mkForm " a@b.com " "pw  ")))) =
       [(lit " a@b.com ", lit "pw  ")].
Proof.
  split; [repeat split|].
  apply (login_receives_untrimmed_fields resolves (mkForm " a@b.com " "pw  "));
    reflexivity.
Defined.

(** ** The failure message *)

Lemma errorMessage_response (error : JsValue) :
  carriesResponse error = true ->
  errorMessage error =
    or_else (get_opt (get_opt (get error (lit "response")) (lit "data"))
                     (lit "error"))
            genericLoginFailure.
Proof.
  unfold carriesResponse, errorMessage; intro H; rewrite H; reflexivity.
Qed.

Lemma errorMessage_no_response (error : JsValue) :
  carriesResponse error = false ->
  errorMessage error =
    if instanceof_Error error then get error (lit "message")
    else genericLoginFailure.
Proof.
  unfold carriesResponse, errorMessage; intro H; rewrite H; reflexivity.
Qed.



(** The example of the specification: a rejection whose
    [response.data.error] is 'invalid credentials' shows that string. *)
Example invalid_credentials_shown :
  toasts (log (snd (submit (rejects invalidCredentials)
                           (mkForm "a@b.com" "pw")))) =
    [{| title := lit "login failed";
        description := JsStr (lit "invalid credentials");
        variant := Some Destructive |}].
Proof. reflexivity. Qed.


(** ** The Google button *)

Lemma clickGoogle_returns (env : Env) (st : FormState) :
  env LoginWithGoogle = Fulfilled ->
  clickGoogle env st =
    (Returned tt,
     {| cells := apply_action (SetIsGoogleLoading true) st;
        log := [EvDo (SetIsGoogleLoading true); EvCall LoginWithGoogle] |}).
Proof.
  intro H; unfold clickGoogle, handleGoogleLogin; cbn; rewrite H; reflexivity.
Qed.

Lemma clickGoogle_throws (env : Env) (st : FormState) (error : JsValue) :
  env LoginWithGoogle = Failed error ->
  clickGoogle env st =
    (Returned tt,
     {| cells := apply_action (SetIsGoogleLoading false) st;
        log := [EvDo (SetIsGoogleLoading true);
                EvCall LoginWithGoogle;
                EvDo (ConsoleError (lit "Google login failed:") error);
                EvDo (Toast googleLoginFailed);
                EvDo (SetIsGoogleLoading false)] |}).
Proof.
  intro H; unfold clickGoogle, handleGoogleLogin; cbn; rewrite H; reflexivity.
Qed.

(** C6. Every click on the Google button first sets the Google loading
    flag to true, then calls the Google login of the auth service.  If
    that call throws, the destructive notification titled 'error' that
    says 'failed to start google login. please try again.' is shown and
    the flag is set back to false; if it returns, nothing is shown and
    the flag is still true when the handler is over. *)
Theorem google_flag_kept_unless_throw (env : Env) (st : FormState) :
  (exists rest,
      log (snd (clickGoogle env st)) =
        EvDo (SetIsGoogleLoading true) :: EvCall LoginWithGoogle :: rest)
  /\ match env LoginWithGoogle with
     | Failed error =>
         toasts (log (snd (clickGoogle env st))) =
           [{| title := lit "error";
               description :=
                 JsStr (lit "failed to start google login. please try again.");
               variant := Some Destructive |}]
         /\ isGoogleLoading (cells (snd (clickGoogle env st))) = false
     | Fulfilled =>
         toasts (log (snd (clickGoogle env st))) = []
         /\ isGoogleLoading (cells (snd (clickGoogle env st))) = true
     end.
Proof.
  destruct (env LoginWithGoogle) as [|error] eqn:H.
  - rewrite (clickGoogle_returns env st H); split; [eexists|split];
      reflexivity.
  - rewrite (clickGoogle_throws env st error H); split; [eexists|split];
      reflexivity.
Qed.

(** With a rejection value read as plain data, both handlers return.  A
    submission shows exactly one notification, writes nothing to the
    console and calls the login at most once; a Google login that throws
    is written to the console with its reason and shown as one
    notification, and is not tried again. *)
Lemma handlers_return_on_data (env : Env) (st : FormState) :
  fst (submit env st) = Returned tt
  /\ List.length (toasts (log (snd (submit env st)))) = 1
  /\ consoleErrors (log (snd (submit env st))) = []
  /\ List.length (logins (log (snd (submit env st)))) <= 1
  /\ fst (clickGoogle env st) = Returned tt
  /\ match env LoginWithGoogle with
     | Failed error =>
         consoleErrors (log (snd (clickGoogle env st))) =
           [(lit "Google login failed:", error)]
         /\ toasts (log (snd (clickGoogle env st))) = [googleLoginFailed]
         /\ log (snd (clickGoogle env st)) =
              [EvDo (SetIsGoogleLoading true);
               EvCall LoginWithGoogle;
               EvDo (ConsoleError (lit "Google login failed:") error);
               EvDo (Toast googleLoginFailed);
               EvDo (SetIsGoogleLoading false)]
     | Fulfilled =>
         consoleErrors (log (snd (clickGoogle env st))) = []
         /\ toasts (log (snd (clickGoogle env st))) = []
     end.
Proof.
  assert (Hs : fst (submit env st) = Returned tt
               /\ List.length (toasts (log (snd (submit env st)))) = 1
               /\ consoleErrors (log (snd (submit env st))) = []
               /\ List.length (logins (log (snd (submit env st)))) <= 1).
  { destruct (blank (email st)) eqn:He.
    - rewrite (submit_blank_email env st He); cbn; auto.
    - destruct (blank (password st)) eqn:Hp.
      + rewrite (submit_blank_password env st He Hp); cbn; auto.
      + rewrite (submit_valid env st He Hp); cbn; auto. }
  destruct Hs as [H1 [H2 [H3 H4]]]; repeat (split; [assumption|]).
  destruct (env LoginWithGoogle) as [|error] eqn:H.
  - rewrite (clickGoogle_returns env st H); repeat split.
  - rewrite (clickGoogle_throws env st error H); repeat split.
Qed.

(** ** The event loop *)

Lemma handleSubmit_turn_blank (env : Env) (st : FormState) (w : World) :
  blank (email st) = true \/ blank (password st) = true ->
  exists w', run_turn env (handleSubmit st) w = Done (Returned tt) w'.
Proof.
  intro H; unfold handleSubmit; cbn -[blank record].
  destruct (blank (email st)); [eexists; reflexivity|].
  destruct H as [H|H]; [discriminate|].
  rewrite H; eexists; reflexivity.
Qed.

Lemma handleGoogleLogin_turn (env : Env) (w : World) :
  exists w', run_turn env handleGoogleLogin w = Done (Returned tt) w'.
Proof.
  unfold handleGoogleLogin; cbn -[record].
  destruct (env LoginWithGoogle); eexists; reflexivity.
Qed.

Lemma page_ok_idle (w : World) : page_ok {| world := w; inflight := [] |}.
Proof.
  split; cbn; [lia | intros c k []].
Qed.

Lemma idle_when_not_loading (pg : Page) :
  page_ok pg -> isLoading (cells (world pg)) = false -> inflight pg = [].
Proof.
  intros [_ H] Hl; destruct (inflight pg) as [|[c k] r]; [reflexivity|].
  destruct (H c k (or_introl eq_refl)) as [Ht _]; congruence.
Qed.

Lemma remove_only (A : Type) (i : nat) (l : list A) (x : A) :
  List.length l <= 1 -> nth_error l i = Some x -> remove_nth i l = [].
Proof.
  destruct l as [|y [|z r]]; cbn; intros Hlen Hn.
  - destruct i; discriminate.
  - destruct i as [|j]; [reflexivity | destruct j; discriminate].
  - lia.
Qed.

Lemma dispatch_page_ok (ev : UiEvent) (pg pg' : Page) :
  page_ok pg -> dispatch ev pg = Some pg' -> page_ok pg'.
Proof.
  intros Hok; destruct ev as [v|v|env|env|i o env|];
    cbn -[handleSubmit handleGoogleLogin turn]; intro Hd.
  - injection Hd as <-; exact Hok.
  - injection Hd as <-; exact Hok.
  - destruct (isLoading (cells (world pg))) eqn:Hl; [discriminate|].
    destruct (isGoogleLoading (cells (world pg))); [discriminate|].
    injection Hd as <-.
    rewrite (idle_when_not_loading pg Hok Hl); unfold turn.
    destruct (blank (email (cells (world pg)))) eqn:He.
    + destruct (handleSubmit_turn_blank env (cells (world pg)) (world pg)
                  (or_introl He)) as [w' ->]; apply page_ok_idle.
    + destruct (blank (password (cells (world pg)))) eqn:Hp.
      * destruct (handleSubmit_turn_blank env (cells (world pg)) (world pg)
                    (or_intror Hp)) as [w' ->]; apply page_ok_idle.
      * destruct (handleSubmit_turn env (cells (world pg)) (world pg) He Hp)
          as [k [-> Hk]].
        split; cbn; [lia|].
        intros c k' [Heq|[]]; injection Heq as <- <-.
        split; [reflexivity|].
        intros o' env' w'; eexists; eexists; apply Hk.
  - destruct (isGoogleLoading (cells (world pg))); [discriminate|].
    destruct (isLoading (cells (world pg))) eqn:Hl; [discriminate|].
    injection Hd as <-.
    rewrite (idle_when_not_loading pg Hok Hl); unfold turn.
    destruct (handleGoogleLogin_turn env (world pg)) as [w' ->].
    apply page_ok_idle.
  - destruct (nth_error (inflight pg) i) as [[c k]|] eqn:Hn; [|discriminate].
    injection Hd as <-.
    destruct Hok as [Hlen Hin].
    rewrite (remove_only _ i (inflight pg) _ Hlen Hn); unfold turn.
    destruct (Hin c k (nth_error_In _ _ Hn)) as [_ Hk].
    destruct (Hk o env (world pg)) as [r [w' ->]]; apply page_ok_idle.
  - injection Hd as <-; exact Hok.
Qed.

Lemma dispatch_all_page_ok (evs : list UiEvent) :
  forall pg pg', page_ok pg -> dispatch_all evs pg = Some pg' -> page_ok pg'.
Proof.
  induction evs as [|ev r IH]; cbn; intros pg pg' Hok H.
  - injection H as <-; exact Hok.
  - destruct (dispatch ev pg) as [pg1|] eqn:Hd; [|discriminate].
    exact (IH pg1 pg' (dispatch_page_ok ev pg pg1 Hok Hd) H).
Qed.

Lemma reachable_page_ok (pg : Page) : reachable pg -> page_ok pg.
Proof.
  intros [evs H].
  exact (dispatch_all_page_ok evs initialPage pg (page_ok_idle _) H).
Qed.

(** C7. In every state the page can reach, if [isLoading] or
    [isGoogleLoading] is true then the submit button and the Google
    button are both rendered disabled, so neither a submission nor a
    Google login can be started; at most one submission waits for the
    auth service, and while one waits [isLoading] is true. *)
Theorem one_submission_in_flight (pg : Page) :
  reachable pg ->
  (isLoading (cells (world pg)) || isGoogleLoading (cells (world pg)) = true ->
   submitDisabled (render (cells (world pg))) = true
   /\ googleDisabled (render (cells (world pg))) = true
   /\ forall env, dispatch (SubmitForm env) pg = None
                  /\ dispatch (ClickGoogle env) pg = None)
  /\ List.length (inflight pg) <= 1
  /\ (inflight pg <> [] -> isLoading (cells (world pg)) = true).
Proof.
  intro Hr; destruct (reachable_page_ok pg Hr) as [Hlen Hin].
  split; [|split; [exact Hlen|]].
  - intro Hl; cbn -[handleSubmit].
    assert (Hg : isGoogleLoading (cells (world pg))
                 || isLoading (cells (world pg)) = true)
      by (rewrite orb_comm; exact Hl).
    rewrite Hl, Hg; repeat split.
  - destruct (inflight pg) as [|[c k] r]; [intros []; reflexivity|].
    intros _; apply (Hin c k); left; reflexivity.
Qed.

Lemma one_submission_in_flight_witness :
  (reachable busyPage /\ List.length (inflight busyPage) = 1)
  /\ (isLoading (cells (world busyPage))
      || isGoogleLoading (cells (world busyPage)) = true ->
      submitDisabled (render (cells (world busyPage))) = true
      /\ googleDisabled (render (cells (world busyPage))) = true
      /\ forall env, dispatch (SubmitForm env) busyPage = None
                     /\ dispatch (ClickGoogle env) busyPage = None)
  /\ List.length (inflight busyPage) <= 1
  /\ (inflight busyPage <> [] -> isLoading (cells (world busyPage)) = true).
Proof.
  split; [split; [exists typedAndSubmitted|]; reflexivity|].
  apply (one_submission_in_flight busyPage).
  exists typedAndSubmitted; reflexivity.
Defined.

(** ** What a submission does and does not do *)

Lemma not_whitespaceOnly_Exists (s : JsString) :
  ~ whitespaceOnly s <-> Exists nonWhiteSpace s.
Proof.
  unfold whitespaceOnly, nonWhiteSpace; induction s as [|c r IH].
  - split; intro H; [exfalso; apply H; constructor | inversion H].
  - destruct (isWhiteSpace c) eqn:Hc.
    + split; intro H.
      * apply Exists_cons_tl, IH; intro Hr; apply H; constructor; assumption.
      * inversion H as [x l Hx|x l Hx]; subst; [congruence|].
        intro Hall; inversion Hall; subst.
        apply IH in Hx; apply Hx; assumption.
    + split; intro H; [apply Exists_cons_hd; assumption|].
      intro Hall; inversion Hall; congruence.
Qed.

(** X1. The field checks are the only gate before the auth service:
    [login] is called exactly when the email and the password each hold
    a character that is not white space.  The handler checks no email
    format and no password length. *)
Theorem login_called_iff_fields_filled (env : Env) (st : FormState) :
  logins (log (snd (submit env st))) <> []
  <-> Exists nonWhiteSpace (email st) /\ Exists nonWhiteSpace (password st).
Proof.
  rewrite <- !not_whitespaceOnly_Exists, <- !blank_false.
  destruct (blank (email st)) eqn:He.
  - rewrite (submit_blank_email env st He); cbn.
    split; [intro H; exfalso; apply H; reflexivity | intros [H _]; discriminate].
  - destruct (blank (password st)) eqn:Hp.
    + rewrite (submit_blank_password env st He Hp); cbn.
      split; [intro H; exfalso; apply H; reflexivity
             | intros [_ H]; discriminate].
    + rewrite (submit_valid env st He Hp); cbn.
      split; [intros _; split; reflexivity | intros _ H; discriminate].
Qed.

(** X2. A submission never touches the Google side and never rewrites a
    field: it does not call [loginWithGoogle], does not write
    [isGoogleLoading], and the email, the password and [isGoogleLoading]
    are at the end what they were at the start. *)
Theorem submit_leaves_fields_and_google (env : Env) (st : FormState) :
  email (cells (snd (submit env st))) = email st
  /\ password (cells (snd (submit env st))) = password st
  /\ isGoogleLoading (cells (snd (submit env st))) = isGoogleLoading st
  /\ ~ In LoginWithGoogle (calls (log (snd (submit env st))))
  /\ forall b, ~ In (EvDo (SetIsGoogleLoading b)) (log (snd (submit env st))).
Proof.
  destruct (blank (email st)) eqn:He;
    [rewrite (submit_blank_email env st He)|
     destruct (blank (password st)) eqn:Hp;
     [rewrite (submit_blank_password env st He Hp)
     |rewrite (submit_valid env st He Hp)]];
    cbn; repeat split; try tauto;
    try (intros b H; repeat (destruct H as [H|H]; [discriminate H|]);
         exact H);
    try (intro H; repeat (destruct H as [H|H]; [discriminate H|]); exact H).
Qed.

(** X3. A submission stopped by a field check changes no cell and
    writes no loading flag: the button never shows 'logging in...' for
    it and the form stays usable. *)
Theorem rejected_submission_changes_nothing (env : Env) (st : FormState) :
  whitespaceOnly (email st) \/ whitespaceOnly (password st) ->
  cells (snd (submit env st)) = st
  /\ existsb isSetter (log (snd (submit env st))) = false
  /\ calls (log (snd (submit env st))) = []
  /\ render (cells (snd (submit env st))) = render st.
Proof.
  intro H.
  destruct (blank (email st)) eqn:He.
  - rewrite (submit_blank_email env st He); repeat split.
  - destruct H as [H|H]; [apply blank_true in H; congruence|].
    apply blank_true in H.
    rewrite (submit_blank_password env st He H); repeat split.
Qed.

Lemma rejected_submission_changes_nothing_witness :
  (whitespaceOnly (email (mkForm "a@b.com" " "))
   \/ whitespaceOnly (password (mkForm "a@b.com" " ")))
  /\ cells (snd (submit resolves (mkForm "a@b.com" " "))) = mkForm "a@b.com" " "
  /\ existsb isSetter (log (snd (submit resolves (mkForm "a@b.com" " "))))
     = false
  /\ calls (log (snd (submit resolves (mkForm "a@b.com" " ")))) = []
  /\ render (cells (snd (submit resolves (mkForm "a@b.com" " ")))) =
     render (mkForm "a@b.com" " ").
Proof.
  split; [right; all_blank|].
  apply (rejected_submission_changes_nothing resolves (mkForm "a@b.com" " ")).
  right; all_blank.
Defined.

(** X4. Every submission starts by cancelling the browser's own form
    submission, exactly once, whether or not the field checks pass and
    whatever the auth service does. *)
Theorem submit_prevents_default_first (env : Env) (st : FormState) :
  exists rest,
    log (snd (submit env st)) = EvDo PreventDefault :: rest
    /\ existsb isPreventDefault rest = false.
Proof.
  destruct (blank (email st)) eqn:He;
    [rewrite (submit_blank_email env st He)|
     destruct (blank (password st)) eqn:Hp;
     [rewrite (submit_blank_password env st He Hp)
     |rewrite (submit_valid env st He Hp)]];
    eexists; split; reflexivity.
Qed.

(** X5. A click on the Google button reads no field: blank or not, it
    calls [loginWithGoogle] exactly once and nothing else of the auth
    service, cancels no browser default, and leaves the email, the
    password and [isLoading] as they were. *)
Theorem google_click_ignores_fields (env : Env) (st : FormState) :
  calls (log (snd (clickGoogle env st))) = [LoginWithGoogle]
  /\ existsb isPreventDefault (log (snd (clickGoogle env st))) = false
  /\ email (cells (snd (clickGoogle env st))) = email st
  /\ password (cells (snd (clickGoogle env st))) = password st
  /\ isLoading (cells (snd (clickGoogle env st))) = isLoading st
  /\ forall b, ~ In (EvDo (SetIsLoading b)) (log (snd (clickGoogle env st))).
Proof.
  destruct (env LoginWithGoogle) as [|error] eqn:H;
    [rewrite (clickGoogle_returns env st H)
    |rewrite (clickGoogle_throws env st error H)];
    cbn; repeat split;
    intros b Hin; repeat (destruct Hin as [Hin|Hin]; [discriminate Hin|]);
    exact Hin.
Qed.

(** ** Edge cases of the failure message *)

(** X6. A login that rejects with a value that is not an object (a
    thrown string, number, [null], [undefined], ...) shows the generic
    fallback: the thrown value itself is never displayed. *)
Theorem primitive_rejection_shows_fallback
  (env : Env) (st : FormState) (error : JsValue) :
  blank (email st) = false ->
  blank (password st) = false ->
  env (Login (email st) (password st)) = Failed error ->
  isPrimitive error = true ->
  toasts (log (snd (submit env st))) =
    [{| title := lit "login failed";
        description := JsStr (lit "login failed. please try again.");
        variant := Some Destructive |}].
Proof.
  intros He Hp Hr Hprim.
  assert (Hc : carriesResponse error = false).
  { destruct error; try discriminate Hprim; unfold carriesResponse; cbn;
      rewrite ?andb_false_r; reflexivity. }
  rewrite (submit_valid env st He Hp), Hr; cbn -[errorMessage].
  unfold loginFailed; rewrite (errorMessage_no_response error Hc).
  destruct error; try reflexivity; discriminate Hprim.
Qed.

Lemma primitive_rejection_shows_fallback_witness :
  (blank (email (mkForm "a@b.com" "pw")) = false
   /\ blank (password (mkForm "a@b.com" "pw")) = false
   /\ rejects (JsStr (lit "bad password")) (Login (lit "a@b.com") (lit "pw"))
      = Failed (JsStr (lit "bad password"))
   /\ isPrimitive (JsStr (lit "bad password")) = true)
  /\ toasts (log (snd (submit (rejects (JsStr (lit "bad password")))
                              (mkForm "a@b.com" "pw")))) =
       [{| title := lit "login failed";
           description := JsStr (lit "login failed. please try again.");
           variant := Some Destructive |}].
Proof.
  split; [repeat split|].
  apply (primitive_rejection_shows_fallback
           (rejects (JsStr (lit "bad password"))) (mkForm "a@b.com" "pw")
           (JsStr (lit "bad password"))); reflexivity.
Defined.

(** X7. The description of the failure toast is an empty (falsy) value
    in one case only: the rejection value has no [response] property, is
    an [Error] instance, and its message is falsy.  With a [response]
    property the description is always truthy. *)
Theorem falsy_description_only_from_message (error : JsValue) :
  truthy (errorMessage error) = false
  <-> carriesResponse error = false
      /\ instanceof_Error error = true
      /\ truthy (get error (lit "message")) = false.
Proof.
  destruct (carriesResponse error) eqn:Hc.
  - rewrite (errorMessage_response error Hc); unfold or_else.
    destruct (truthy (get_opt (get_opt (get error (lit "response"))
                                       (lit "data")) (lit "error"))) eqn:Hs.
    + rewrite Hs; split; [discriminate | intros [H _]; discriminate].
    + split; [discriminate | intros [H _]; discriminate].
  - rewrite (errorMessage_no_response error Hc).
    destruct (instanceof_Error error).
    + split; [intro H; repeat split; exact H | intros [_ [_ H]]; exact H].
    + split; [discriminate | intros [_ [H _]]; discriminate].
Qed.

(** X8. An [Error] that has neither a message of its own nor a
    [response] property (as [new Error()] makes it) is shown with an
    empty description: the message read is the empty one of
    [Error.prototype], and the generic fallback is not used. *)
Theorem error_without_message_shows_empty
  (fs : list (JsString * JsValue)) :
  assoc (lit "message") fs = None ->
  assoc (lit "response") fs = None ->
  errorMessage (JsObj ErrorObject fs) = JsStr (lit "")
  /\ errorMessage (JsObj ErrorObject fs) <> genericLoginFailure.
Proof.
  intros Hm Hr.
  assert (Hc : carriesResponse (JsObj ErrorObject fs) = false).
  { unfold carriesResponse, has_property, lookup; rewrite Hr; reflexivity. }
  rewrite (errorMessage_no_response _ Hc); cbn -[lit assoc].
  unfold get, lookup; rewrite Hm; cbn.
  split; [reflexivity | discriminate].
Qed.

Lemma error_without_message_shows_empty_witness :
  (assoc (lit "message") [(lit "code", JsNum 7)] = None
   /\ assoc (lit "response") [(lit "code", JsNum 7)] = None)
  /\ errorMessage (JsObj ErrorObject [(lit "code", JsNum 7)]) = JsStr (lit "")
  /\ errorMessage (JsObj ErrorObject [(lit "code", JsNum 7)])
     <> genericLoginFailure.
Proof.
  split; [split; reflexivity|].
  apply (error_without_message_shows_empty [(lit "code", JsNum 7)]);
    reflexivity.
Defined.

(** ** The full invariant *)

Lemma toasts_app (l l' : list Event) : toasts (l ++ l') = toasts l ++ toasts l'.
Proof.
  induction l as [|[[|t| | | |]|c] r IH]; cbn; rewrite ?IH; reflexivity.
Qed.

Lemma logins_app (l l' : list Event) : logins (l ++ l') = logins l ++ logins l'.
Proof.
  induction l as [|[a|[e p|]] r IH]; cbn; rewrite ?IH; reflexivity.
Qed.

Lemma loginResults_app (l l' : list Event) :
  loginResults (l ++ l') = loginResults l ++ loginResults l'.
Proof.
  unfold loginResults; rewrite toasts_app, filter_app; reflexivity.
Qed.

Lemma isLoginResult_outcome (o : Outcome) : isLoginResult (outcomeToast o) = true.
Proof. destruct o; reflexivity. Qed.

Lemma loginResults_outcome (o : Outcome) :
  loginResults [EvDo (Toast (outcomeToast o))] = [outcomeToast o].
Proof.
  unfold loginResults; cbn -[isLoginResult outcomeToast].
  rewrite (isLoginResult_outcome o); reflexivity.
Qed.

Lemma handleSubmit_turn_email (env : Env) (st : FormState) (w : World) :
  blank (email st) = true ->
  run_turn env (handleSubmit st) w =
    Done (Returned tt)
      (record (EvDo (Toast emailRequired)) (record (EvDo PreventDefault) w)).
Proof.
  intro He; unfold handleSubmit; cbn -[blank record]; rewrite He; reflexivity.
Qed.

Lemma handleSubmit_turn_password (env : Env) (st : FormState) (w : World) :
  blank (email st) = false ->
  blank (password st) = true ->
  run_turn env (handleSubmit st) w =
    Done (Returned tt)
      (record (EvDo (Toast passwordRequired)) (record (EvDo PreventDefault) w)).
Proof.
  intros He Hp; unfold handleSubmit; cbn -[blank record].
  rewrite He, Hp; reflexivity.
Qed.

Lemma handleGoogleLogin_turn_returns (env : Env) (w : World) :
  env LoginWithGoogle = Fulfilled ->
  run_turn env handleGoogleLogin w =
    Done (Returned tt)
      (record (EvCall LoginWithGoogle)
         (record (EvDo (SetIsGoogleLoading true)) w)).
Proof.
  intro H; unfold handleGoogleLogin; cbn -[record]; rewrite H; reflexivity.
Qed.

Lemma handleGoogleLogin_turn_throws
  (env : Env) (w : World) (error : JsValue) :
  env LoginWithGoogle = Failed error ->
  run_turn env handleGoogleLogin w =
    Done (Returned tt)
      (record (EvDo (SetIsGoogleLoading false))
         (record (EvDo (Toast googleLoginFailed))
            (record (EvDo (ConsoleError (lit "Google login failed:") error))
               (record (EvCall LoginWithGoogle)
                  (record (EvDo (SetIsGoogleLoading true)) w))))).
Proof.
  intro H; unfold handleGoogleLogin; cbn -[record]; rewrite H; reflexivity.
Qed.

Lemma page_inv_idle (pg : Page) :
  page_inv pg -> isLoading (cells (world pg)) = false -> inflight pg = [].
Proof.
  intros [_ H] Hl; destruct (inflight pg) as [|[c k] [|x r]];
    [reflexivity | destruct H as [H _]; congruence | contradiction].
Qed.

Ltac count_log :=
  cbn [world inflight log cells record];
  rewrite ?logins_app, ?loginResults_app, ?length_app;
  cbn -[logins loginResults].

Lemma dispatch_page_inv (ev : UiEvent) (pg pg' : Page) :
  page_inv pg -> dispatch ev pg = Some pg' -> page_inv pg'.
Proof.
  intros Hinv; destruct ev as [v|v|env|env|i o env|];
    cbn -[handleSubmit handleGoogleLogin turn]; intro Hd.
  - injection Hd as <-; destruct Hinv as [Hc Hs]; split; [exact Hc|].
    cbn; destruct (inflight pg) as [|[c k] [|x r]]; exact Hs.
  - injection Hd as <-; destruct Hinv as [Hc Hs]; split; [exact Hc|].
    cbn; destruct (inflight pg) as [|[c k] [|x r]]; exact Hs.
  - destruct (isLoading (cells (world pg))) eqn:Hl; [discriminate|].
    destruct (isGoogleLoading (cells (world pg))) eqn:Hg; [discriminate|].
    injection Hd as <-.
    pose proof (page_inv_idle pg Hinv Hl) as Hnil.
    destruct Hinv as [Hc _]; rewrite Hnil in *; unfold turn.
    destruct (blank (email (cells (world pg)))) eqn:He.
    + rewrite (handleSubmit_turn_email env _ (world pg) He).
      split; [count_log; cbn in *; lia | exact Hl].
    + destruct (blank (password (cells (world pg)))) eqn:Hp.
      * rewrite (handleSubmit_turn_password env _ (world pg) He Hp).
        split; [count_log; cbn in *; lia | exact Hl].
      * destruct (handleSubmit_turn env (cells (world pg)) (world pg) He Hp)
          as [k [-> Hk]].
        split; [count_log; cbn in *; lia|].
        cbn; repeat split; [exact Hg|].
        intros o' env' w'; apply Hk.
  - destruct (isGoogleLoading (cells (world pg))) eqn:Hg; [discriminate|].
    destruct (isLoading (cells (world pg))) eqn:Hl; [discriminate|].
    injection Hd as <-.
    pose proof (page_inv_idle pg Hinv Hl) as Hnil.
    destruct Hinv as [Hc _]; rewrite Hnil in *; unfold turn.
    destruct (env LoginWithGoogle) as [|error] eqn:Ho.
    + rewrite (handleGoogleLogin_turn_returns env (world pg) Ho).
      split; [count_log; cbn in *; lia | exact Hl].
    + rewrite (handleGoogleLogin_turn_throws env (world pg) error Ho).
      split; [count_log; cbn in *; lia | exact Hl].
  - destruct Hinv as [Hc Hs].
    destruct (inflight pg) as [|[c k] [|x r]]; [| |contradiction].
    + destruct i; discriminate.
    + destruct i as [|j]; [|destruct j; discriminate].
      cbn in Hd; injection Hd as <-.
      destruct Hs as [_ [_ Hk]]; unfold turn; rewrite (Hk o env (world pg)).
      split; [|reflexivity].
      count_log; rewrite (loginResults_outcome o); cbn in *; lia.
  - injection Hd as <-; destruct Hinv as [Hc Hs]; split.
    + count_log; cbn in *; lia.
    + cbn; destruct (inflight pg) as [|[c k] [|x r]]; exact Hs.
Qed.

Lemma dispatch_all_page_inv (evs : list UiEvent) :
  forall pg pg', page_inv pg -> dispatch_all evs pg = Some pg' -> page_inv pg'.
Proof.
  induction evs as [|ev r IH]; cbn; intros pg pg' Hinv H.
  - injection H as <-; exact Hinv.
  - destruct (dispatch ev pg) as [pg1|] eqn:Hd; [|discriminate].
    exact (IH pg1 pg' (dispatch_page_inv ev pg pg1 Hinv Hd) H).
Qed.

Lemma reachable_page_inv (pg : Page) : reachable pg -> page_inv pg.
Proof.
  intros [evs H].
  apply (dispatch_all_page_inv evs initialPage pg); [|exact H].
  split; reflexivity.
Qed.

(** ** Consequences for the page *)

(** X9. In every state the page can reach, the two loading flags are
    never both true, and [isLoading] is true exactly while a login is
    awaited: the submit button reads 'logging in...' then and only
    then. *)
Theorem loading_flag_tracks_pending_login (pg : Page) :
  reachable pg ->
  isLoading (cells (world pg)) && isGoogleLoading (cells (world pg)) = false
  /\ (isLoading (cells (world pg)) = true <-> inflight pg <> [])
  /\ (submitLabel (render (cells (world pg))) = lit "logging in..."
      <-> inflight pg <> []).
Proof.
  intro Hr; destruct (reachable_page_inv pg Hr) as [_ Hs]; cbn.
  destruct (inflight pg) as [|[c k] [|x r]]; [| |contradiction].
  - rewrite Hs; repeat split; try discriminate; intro H; exfalso;
      apply H; reflexivity.
  - destruct Hs as [Hl [Hg _]]; rewrite Hl, Hg; repeat split;
      intros _; discriminate.
Qed.

Lemma loading_flag_tracks_pending_login_witness :
  reachable busyPage
  /\ isLoading (cells (world busyPage))
     && isGoogleLoading (cells (world busyPage)) = false
  /\ (isLoading (cells (world busyPage)) = true <-> inflight busyPage <> [])
  /\ (submitLabel (render (cells (world busyPage))) = lit "logging in..."
      <-> inflight busyPage <> []).
Proof.
  split; [exists typedAndSubmitted; reflexivity|].
  apply (loading_flag_tracks_pending_login busyPage).
  exists typedAndSubmitted; reflexivity.
Defined.

Lemma frozen_step (ev : UiEvent) (pg pg' : Page) :
  isGoogleLoading (cells (world pg)) = true ->
  inflight pg = [] ->
  dispatch ev pg = Some pg' ->
  isEdit ev || isSignUp ev = true
  /\ withoutSwitch (log (world pg')) = withoutSwitch (log (world pg))
  /\ isGoogleLoading (cells (world pg')) = true
  /\ inflight pg' = [].
Proof.
  intros Hg Hnil; destruct ev as [v|v|env|env|i o env|];
    cbn -[handleSubmit handleGoogleLogin turn]; intro Hd.
  - injection Hd as <-; cbn; auto.
  - injection Hd as <-; cbn; auto.
  - rewrite Hg, orb_true_r in Hd; discriminate.
  - rewrite Hg in Hd; discriminate.
  - rewrite Hnil in Hd; destruct i; discriminate.
  - injection Hd as <-; unfold withoutSwitch; cbn.
    rewrite filter_app, app_nil_r; auto.
Qed.

(** X10. Once a Google login has started without throwing, the page is
    frozen: whatever happens next, only field edits and clicks on the
    sign-up button get through, and apart from the calls of
    [onSwitchToRegister] nothing more is called, shown or logged; the
    Google button keeps reading 'connecting...' with both buttons
    disabled. *)
Theorem google_login_freezes_page (pg pg' : Page) (evs : list UiEvent) :
  reachable pg ->
  isGoogleLoading (cells (world pg)) = true ->
  dispatch_all evs pg = Some pg' ->
  forallb (fun ev => isEdit ev || isSignUp ev) evs = true
  /\ withoutSwitch (log (world pg')) = withoutSwitch (log (world pg))
  /\ googleLabel (render (cells (world pg'))) = lit "connecting..."
  /\ submitDisabled (render (cells (world pg'))) = true
  /\ googleDisabled (render (cells (world pg'))) = true
  /\ inflight pg' = [].
Proof.
  intros Hr Hg.
  assert (Hnil : inflight pg = []).
  { destruct (reachable_page_inv pg Hr) as [_ Hs].
    destruct (inflight pg) as [|[c k] [|x r]];
      [reflexivity | destruct Hs as [_ [Hs _]]; congruence | contradiction]. }
  clear Hr; revert pg Hg Hnil.
  induction evs as [|ev r IH]; cbn -[dispatch]; intros pg Hg Hnil H.
  - injection H as <-; cbn; rewrite Hg, orb_true_r.
    repeat split; try reflexivity; exact Hnil.
  - destruct (dispatch ev pg) as [pg1|] eqn:Hd; [|discriminate].
    destruct (frozen_step ev pg pg1 Hg Hnil Hd) as [He [Hlog [Hg1 Hn1]]].
    destruct (IH pg1 Hg1 Hn1 H) as [Hall [Hlog' Hrest]].
    rewrite He, Hall, Hlog', Hlog; split; [reflexivity|].
    split; [reflexivity | exact Hrest].
Qed.

Lemma google_login_freezes_page_witness :
  (reachable googlePage
   /\ isGoogleLoading (cells (world googlePage)) = true
   /\ dispatch_all [ChangeEmail (lit "x"); ClickSignUp] googlePage =
        Some frozenPage
   /\ dispatch_all [ChangeEmail (lit "x"); SubmitForm resolves] googlePage =
        None)
  /\ forallb (fun ev => isEdit ev || isSignUp ev)
             [ChangeEmail (lit "x"); ClickSignUp] = true
  /\ withoutSwitch (log (world frozenPage)) =
     withoutSwitch (log (world googlePage))
  /\ googleLabel (render (cells (world frozenPage))) = lit "connecting..."
  /\ submitDisabled (render (cells (world frozenPage))) = true
  /\ googleDisabled (render (cells (world frozenPage))) = true
  /\ inflight frozenPage = [].
Proof.
  split; [repeat split; exists [ClickGoogle resolves]; reflexivity|].
  apply (google_login_freezes_page googlePage frozenPage
           [ChangeEmail (lit "x"); ClickSignUp]);
    [exists [ClickGoogle resolves]; reflexivity | reflexivity | reflexivity].
Defined.



(** X12. A Google login that throws leaves the page as it was, apart
    from the log: the cells and what is in flight are unchanged, the
    failure toast is shown, and the Google button can be clicked
    again. *)
Theorem failed_google_click_allows_retry
  (pg pg' : Page) (env : Env) (error : JsValue) :
  env LoginWithGoogle = Failed error ->
  dispatch (ClickGoogle env) pg = Some pg' ->
  cells (world pg') = cells (world pg)
  /\ inflight pg' = inflight pg
  /\ toasts (log (world pg')) = toasts (log (world pg)) ++ [googleLoginFailed]
  /\ forall env', dispatch (ClickGoogle env') pg' <> None.
Proof.
  intros Ho; destruct pg as [[st lg] fl]; destruct st as [e p l g].
  cbn -[handleGoogleLogin turn]; intro Hd.
  destruct g; [discriminate|]; destruct l; [discriminate|].
  injection Hd as <-; unfold turn.
  rewrite (handleGoogleLogin_turn_throws env _ error Ho).
  cbn -[handleGoogleLogin]; rewrite !toasts_app; cbn -[handleGoogleLogin].
  rewrite !app_nil_r; repeat split; intros env'; discriminate.
Qed.

Lemma failed_google_click_allows_retry_witness :
  (rejects JsNull LoginWithGoogle = Failed JsNull
   /\ dispatch (ClickGoogle (rejects JsNull)) initialPage
      = Some googleFailedPage)
  /\ cells (world googleFailedPage) = cells (world initialPage)
  /\ inflight googleFailedPage = inflight initialPage
  /\ toasts (log (world googleFailedPage)) =
       toasts (log (world initialPage)) ++ [googleLoginFailed]
  /\ forall env', dispatch (ClickGoogle env') googleFailedPage <> None.
Proof.
  split; [split; reflexivity|].
  apply (failed_google_click_allows_retry initialPage googleFailedPage
           (rejects JsNull) JsNull); reflexivity.
Defined.



(** X14. The email and password cells change only through their own
    input: a field edit sets its field to the typed value and changes
    nothing else (no flag, no log entry, nothing in flight), and no
    submission, Google click or settled login ever rewrites or clears a
    field. *)
Theorem only_edits_change_fields (pg pg' : Page) (ev : UiEvent) :
  reachable pg ->
  dispatch ev pg = Some pg' ->
  email (cells (world pg')) =
    match ev with
    | ChangeEmail v => v
    | _ => email (cells (world pg))
    end
  /\ password (cells (world pg')) =
       match ev with
       | ChangePassword v => v
       | _ => password (cells (world pg))
       end
  /\ (isEdit ev = true ->
      log (world pg') = log (world pg)
      /\ isLoading (cells (world pg')) = isLoading (cells (world pg))
      /\ isGoogleLoading (cells (world pg'))
         = isGoogleLoading (cells (world pg))
      /\ inflight pg' = inflight pg).
Proof.
  intros Hr; destruct (reachable_page_inv pg Hr) as [_ Hs].
  destruct ev as [v|v|env|env|i o env|];
    cbn -[handleSubmit handleGoogleLogin turn]; intro Hd.
  - injection Hd as <-; cbn; repeat split.
  - injection Hd as <-; cbn; repeat split.
  - destruct (isLoading (cells (world pg)) || isGoogleLoading (cells (world pg)));
      [discriminate|].
    injection Hd as <-; unfold turn.
    destruct (blank (email (cells (world pg)))) eqn:He.
    + rewrite (handleSubmit_turn_email env _ (world pg) He).
      repeat split; discriminate.
    + destruct (blank (password (cells (world pg)))) eqn:Hp.
      * rewrite (handleSubmit_turn_password env _ (world pg) He Hp).
        repeat split; discriminate.
      * destruct (handleSubmit_turn env (cells (world pg)) (world pg) He Hp)
          as [k [-> _]].
        repeat split; discriminate.
  - destruct (isGoogleLoading (cells (world pg)) || isLoading (cells (world pg)));
      [discriminate|].
    injection Hd as <-; unfold turn.
    destruct (env LoginWithGoogle) as [|error] eqn:Ho.
    + rewrite (handleGoogleLogin_turn_returns env (world pg) Ho).
      repeat split; discriminate.
    + rewrite (handleGoogleLogin_turn_throws env (world pg) error Ho).
      repeat split; discriminate.
  - destruct (inflight pg) as [|[c k] [|x r]]; [| |contradiction].
    + destruct i; discriminate.
    + destruct i as [|j]; [|destruct j; discriminate].
      cbn -[turn] in Hd; injection Hd as <-.
      destruct Hs as [_ [_ Hk]]; unfold turn; rewrite (Hk o env (world pg)).
      repeat split; discriminate.
  - injection Hd as <-; repeat split; discriminate.
Qed.

Lemma only_edits_change_fields_witness :
  (reachable busyPage
   /\ dispatch (ChangeEmail (lit "z")) busyPage
      = Some (with_cells (set_email (lit "z")) busyPage))
  /\ email (cells (world (with_cells (set_email (lit "z")) busyPage)))
     = lit "z"
  /\ password (cells (world (with_cells (set_email (lit "z")) busyPage)))
     = password (cells (world busyPage))
  /\ (isEdit (ChangeEmail (lit "z")) = true ->
      log (world (with_cells (set_email (lit "z")) busyPage))
      = log (world busyPage)
      /\ isLoading (cells (world (with_cells (set_email (lit "z")) busyPage)))
         = isLoading (cells (world busyPage))
      /\ isGoogleLoading
           (cells (world (with_cells (set_email (lit "z")) busyPage)))
         = isGoogleLoading (cells (world busyPage))
      /\ inflight (with_cells (set_email (lit "z")) busyPage)
         = inflight busyPage).
Proof.
  split; [split; [exists typedAndSubmitted|]; reflexivity|].
  apply (only_edits_change_fields busyPage
           (with_cells (set_email (lit "z")) busyPage)
           (ChangeEmail (lit "z")));
    [exists typedAndSubmitted; reflexivity | reflexivity].
Defined.

(** X15. The inputs are controlled by the cells: on a page with both
    flags down, typing an email and a password that are not blank and
    submitting calls [login] with exactly the typed values, and the page
    then shows them in the inputs, reads 'logging in...' and has both
    buttons disabled. *)
Theorem typed_values_are_submitted
  (pg : Page) (v w : JsString) (env : Env) :
  isLoading (cells (world pg)) = false ->
  isGoogleLoading (cells (world pg)) = false ->
  blank v = false ->
  blank w = false ->
  exists pg',
    dispatch_all [ChangeEmail v; ChangePassword w; SubmitForm env] pg = Some pg'
    /\ log (world pg') =
         log (world pg)
         ++ [EvDo PreventDefault; EvDo (SetIsLoading true); EvCall (Login v w)]
    /\ emailValue (render (cells (world pg'))) = v
    /\ passwordValue (render (cells (world pg'))) = w
    /\ submitLabel (render (cells (world pg'))) = lit "logging in..."
    /\ submitDisabled (render (cells (world pg'))) = true
    /\ googleDisabled (render (cells (world pg'))) = true.
Proof.
  intros Hl Hg Hv Hw.
  destruct (handleSubmit_turn env
              (set_password w (set_email v (cells (world pg))))
              (world (with_cells (set_password w)
                        (with_cells (set_email v) pg))) Hv Hw)
    as [k [Hk _]].
  eexists; split.
  - cbn -[handleSubmit turn]; rewrite Hl, Hg; cbn -[handleSubmit turn].
    unfold turn; cbn -[handleSubmit run_turn] in *; rewrite Hk; reflexivity.
  - cbn; rewrite <- !app_assoc, orb_true_r; repeat split.
Qed.

Lemma typed_values_are_submitted_witness :
  (isLoading (cells (world initialPage)) = false
   /\ isGoogleLoading (cells (world initialPage)) = false
   /\ blank (lit "a@b.com") = false
   /\ blank (lit "pw") = false)
  /\ exists pg',
    dispatch_all [ChangeEmail (lit "a@b.com"); ChangePassword (lit "pw");
                  SubmitForm resolves] initialPage = Some pg'
    /\ log (world pg') =
         log (world initialPage)
         ++ [EvDo PreventDefault; EvDo (SetIsLoading true);
             EvCall (Login (lit "a@b.com") (lit "pw"))]
    /\ emailValue (render (cells (world pg'))) = lit "a@b.com"
    /\ passwordValue (render (cells (world pg'))) = lit "pw"
    /\ submitLabel (render (cells (world pg'))) = lit "logging in..."
    /\ submitDisabled (render (cells (world pg'))) = true
    /\ googleDisabled (render (cells (world pg'))) = true.
Proof.
  split; [repeat split|].
  apply (typed_values_are_submitted initialPage (lit "a@b.com") (lit "pw")
           resolves); reflexivity.
Defined.

(** ** The event loop and the complete run agree *)

(** A complete run is the first turn followed by the run of what was
    suspended, resumed with the answer of the auth service. *)
Lemma run_after_turn {A : Type} (env : Env) (p : Prog A) :
  forall w,
    run env p w =
      match run_turn env p w with
      | Done r w' => (r, w')
      | Pending c k w' => run env (k (env c)) w'
      end.
Proof.
  induction p as [a|v|a k IH|c k IH|c k IH]; intro w; cbn;
    try reflexivity; apply IH.
Qed.

(** X16. Submitting a valid form and then settling the awaited login
    with the answer of the auth service leaves the page exactly where
    one uninterrupted run of [handleSubmit] leaves it, with nothing in
    flight: what is proved of a whole submission holds of the page. *)
Theorem submit_then_settle_is_one_run (pg : Page) (env : Env) :
  reachable pg ->
  isLoading (cells (world pg)) = false ->
  isGoogleLoading (cells (world pg)) = false ->
  blank (email (cells (world pg))) = false ->
  blank (password (cells (world pg))) = false ->
  exists pg1 pg2,
    dispatch (SubmitForm env) pg = Some pg1
    /\ dispatch
         (Settle 0
            (env (Login (email (cells (world pg)))
                        (password (cells (world pg))))) env) pg1
       = Some pg2
    /\ run env (handleSubmit (cells (world pg))) (world pg)
       = (Returned tt, world pg2)
    /\ inflight pg2 = [].
Proof.
  intros Hr Hl Hg He Hp.
  pose proof (page_inv_idle pg (reachable_page_inv pg Hr) Hl) as Hnil.
  destruct (handleSubmit_turn env (cells (world pg)) (world pg) He Hp)
    as [k [Hk Hres]].
  eexists; eexists; split; [|split; [|split]].
  - cbn -[handleSubmit turn]; rewrite Hl, Hg; cbn -[handleSubmit turn].
    unfold turn; rewrite Hk, Hnil; reflexivity.
  - cbn -[record]; unfold turn; rewrite Hres; reflexivity.
  - rewrite run_after_turn, Hk, run_after_turn, Hres; reflexivity.
  - reflexivity.
Qed.

Lemma submit_then_settle_is_one_run_witness :
  (reachable typedPage
   /\ isLoading (cells (world typedPage)) = false
   /\ isGoogleLoading (cells (world typedPage)) = false
   /\ blank (email (cells (world typedPage))) = false
   /\ blank (password (cells (world typedPage))) = false)
  /\ exists pg1 pg2,
    dispatch (SubmitForm (rejects serverError500)) typedPage = Some pg1
    /\ dispatch
         (Settle 0
            (rejects serverError500
               (Login (email (cells (world typedPage)))
                      (password (cells (world typedPage)))))
            (rejects serverError500)) pg1
       = Some pg2
    /\ run (rejects serverError500) (handleSubmit (cells (world typedPage)))
           (world typedPage)
       = (Returned tt, world pg2)
    /\ inflight pg2 = [].
Proof.
  split;
    [split;
     [exists [ChangeEmail (lit "a@b.com"); ChangePassword (lit "pw")]|];
     repeat split|].
  apply (submit_then_settle_is_one_run typedPage (rejects serverError500));
    try reflexivity.
  exists [ChangeEmail (lit "a@b.com"); ChangePassword (lit "pw")]; reflexivity.
Defined.

(** ** Reads of the rejection value that throw *)

Lemma guarded_none (target v : JsValue) : guarded None target v = Ret v.
Proof. destruct target; reflexivity. Qed.

Lemma errorMessageX_quiet (rd : Reads) (error : JsValue) :
  quietReads rd -> errorMessageX rd error = Ret (errorMessage error).
Proof.
  destruct rd as [a b c d e f]; unfold quietReads; cbn.
  intros [-> [-> [-> [-> [-> ->]]]]].
  unfold errorMessageX, messageBranch, errorMessage; cbn.
  destruct (truthy error && typeof_object error); cbn;
    repeat (rewrite guarded_none; cbn [bind]);
    repeat match goal with
           | |- context [if ?b then _ else _] => destruct b
           end;
    repeat (rewrite guarded_none; cbn [bind]); reflexivity.
Qed.

(** When no read throws, the spelled-out handler is [handleSubmit]. *)
Lemma handleSubmitX_quiet (env : Env) (rd : Reads) (st : FormState) :
  quietReads rd ->
  run env (handleSubmitX rd st) (fresh st) = submit env st.
Proof.
  intro Hq; unfold submit, handleSubmitX, handleSubmit; cbn -[blank errorMessageX].
  destruct (blank (email st)); [reflexivity|].
  destruct (blank (password st)); [reflexivity|].
  cbn -[errorMessageX].
  destruct (env (Login (email st) (password st))) as [|error];
    [reflexivity|].
  cbn -[errorMessageX]; rewrite (errorMessageX_quiet rd error Hq); reflexivity.
Qed.

(** C8, as the code has it.  Whatever the fields hold and whatever the
    auth service does, as long as the reads the catch block makes of a
    rejection value do not themselves throw, both handlers return: no
    exception leaves them.  A submission shows exactly one notification,
    writes nothing to the console and calls the login at most once; a
    Google login that throws synchronously is written to the console
    with its reason and shown as one notification. *)
Theorem handlers_never_throw_when_reads_return
  (env : Env) (st : FormState) (rd : Reads) :
  quietReads rd ->
  fst (run env (handleSubmitX rd st) (fresh st)) = Returned tt
  /\ List.length (toasts (log (snd (run env (handleSubmitX rd st) (fresh st)))))
     = 1
  /\ consoleErrors (log (snd (run env (handleSubmitX rd st) (fresh st)))) = []
  /\ List.length (logins (log (snd (run env (handleSubmitX rd st) (fresh st)))))
     <= 1
  /\ fst (clickGoogle env st) = Returned tt
  /\ match env LoginWithGoogle with
     | Failed error =>
         consoleErrors (log (snd (clickGoogle env st))) =
           [(lit "Google login failed:", error)]
         /\ toasts (log (snd (clickGoogle env st))) = [googleLoginFailed]
     | Fulfilled =>
         consoleErrors (log (snd (clickGoogle env st))) = []
         /\ toasts (log (snd (clickGoogle env st))) = []
     end.
Proof.
  intro Hq; rewrite (handleSubmitX_quiet env rd st Hq).
  destruct (handlers_return_on_data env st) as [H1 [H2 [H3 [H4 [H5 H6]]]]].
  repeat (split; [assumption|]).
  destruct (env LoginWithGoogle); [exact H6|].
  destruct H6 as [H6 [H7 _]]; split; assumption.
Qed.

Lemma handlers_never_throw_when_reads_return_witness :
  quietReads noThrow
  /\ fst (run (rejects invalidCredentials)
              (handleSubmitX noThrow (mkForm "a@b.com" "pw"))
              (fresh (mkForm "a@b.com" "pw"))) = Returned tt.
Proof.
  split; [repeat split|].
  apply (handlers_never_throw_when_reads_return
           (rejects invalidCredentials) (mkForm "a@b.com" "pw") noThrow).
  repeat split.
Defined.

(** C8, as the specification words it, fails: when the login rejects
    with a value whose [response] is an accessor that throws, the
    exception leaves the catch block; [isLoading] is still cleared, no
    notification is shown, and the promise of [handleSubmit] rejects. *)
Lemma throwing_read_escapes_handleSubmit :
  fst (run (rejects invalidCredentials)
           (handleSubmitX responseGetterThrows (mkForm "a@b.com" "pw"))
           (fresh (mkForm "a@b.com" "pw")))
  = Thrown (JsStr (lit "getter failed"))
  /\ toasts (log (snd (run (rejects invalidCredentials)
                           (handleSubmitX responseGetterThrows
                                          (mkForm "a@b.com" "pw"))
                           (fresh (mkForm "a@b.com" "pw"))))) = []
  /\ isLoading (cells (snd (run (rejects invalidCredentials)
                                (handleSubmitX responseGetterThrows
                                               (mkForm "a@b.com" "pw"))
                                (fresh (mkForm "a@b.com" "pw"))))) = false
  /\ fst (run (rejects invalidCredentials)
              (handleSubmitX responseGetterThrows (mkForm "a@b.com" "pw"))
              (fresh (mkForm "a@b.com" "pw")))
     <> Returned tt.
Proof.
  repeat split; intro H; discriminate H.
Qed.
